(** * The JVC projector remote entity (custom_components/jvc_projectors/remote.py)

    A shallow embedding of the [JVCRemote] entity: its cached snapshot, the
    attribute presentation [extra_state_attributes], and the three operations
    that talk to the projector client ([turn_on], [turn_off], [update]).

    The projector client library is external.  It is modelled as an arbitrary
    deterministic state machine answering each method call with either a value
    or an exception; every theorem about an operation quantifies over all such
    clients.  Values are typed as the entity uses them: the power and
    low-latency queries answer booleans, every other getter answers a string. *)

From stdpp Require Import base option list gmap strings fin_maps.

#[local] Set Warnings "-clear-no-such-hyp".

(** ** Python's [in] on strings *)

(** [needle in hay]: [needle] occurs in [hay] as a contiguous substring. *)
Fixpoint str_in (needle hay : string) : bool :=
  String.prefix needle hay
  || match hay with
     | EmptyString => false
     | String _ rest => str_in needle rest
     end.

(** [any(x in hay for x in needles)] *)
Definition any_in (needles : list string) (hay : string) : bool :=
  existsb (λ x, str_in x hay) needles.

(** ** Values and dictionaries *)

(** The Python values this module stores and reports. *)
Inductive pyval : Type :=
| PNone
| PBool (b : bool)
| PStr (s : string).

#[global] Instance pyval_eq_dec : EqDecision pyval.
Proof. solve_decision. Defined.

(** A dict display [{k1: v1, ..., kn: vn}]: entries are stored left to
    right, a later entry for the same key replacing an earlier one. *)
Definition dict_display (items : list (string * pyval)) : gmap string pyval :=
  foldl (λ d kv, <[kv.1 := kv.2]> d) ∅ items.

(** ** The entity *)

(** The instance attributes assigned in [JVCRemote.__init__], except the
    reference [jvc_client], which lives in the [world] below. *)
Record JVCRemote : Type := mkJVCRemote {
  _name : string;
  _host : string;
  _state : bool;
  _lowlatency_enabled : bool;
  _installation_mode : string;
  _picture_mode : string;
  _input_mode : string;
  _laser_mode : string;
  _eshift : string;
  _color_mode : string;
  _input_level : string;
  _content_type : string;
  _hdr_processing : string;
  _lamp_power : string;
  _hdr_data : string;
  _theater_optimizer : string;
  _model_family : string
}.

(** [JVCRemote.__init__(name, host, jvc_client)], with [family] the
    client's [model_family] property. *)
Definition JVCRemote_init (name host family : string) : JVCRemote :=
  {| _name := name;
     _host := host;
     _state := false;
     _lowlatency_enabled := false;
     _installation_mode := "";
     _picture_mode := "";
     _input_mode := "";
     _laser_mode := "";
     _eshift := "";
     _color_mode := "";
     _input_level := "";
     _content_type := "";
     _hdr_processing := "";
     _lamp_power := "";
     _hdr_data := "";
     _theater_optimizer := "";
     _model_family := family |}.

Definition should_poll (self : JVCRemote) : bool := true.
Definition name (self : JVCRemote) : string := _name self.
Definition host (self : JVCRemote) : string := _host self.
Definition is_on (self : JVCRemote) : bool := _state self.

(** The [extra_state_attributes] property. *)
Definition extra_state_attributes (self : JVCRemote) : gmap string pyval :=
  if str_in "NZ" (_model_family self) then
    dict_display
      [ ("power_state", PBool (_state self));
        ("picture_mode", PStr (_picture_mode self));
        ("content_type", PStr (_content_type self));
        ("hdr_data", PStr (_hdr_data self));
        ("hdr_processing", PStr (_hdr_processing self));
        ("theater_optimizer", PBool (str_in "on" (_theater_optimizer self)));
        ("low_latency", PBool (_lowlatency_enabled self));
        ("input_mode", PStr (_input_mode self));
        ("laser_mode", PStr (_laser_mode self));
        ("input_level", PStr (_input_level self));
        ("color_mode", PStr (_color_mode self));
        ("installation_mode", PStr (_installation_mode self));
        ("eshift", PStr (_eshift self));
        ("model", PStr (_model_family self)) ]
  else if str_in "NX" (_model_family self) then
    dict_display
      [ ("power_state", PBool (_state self));
        ("picture_mode", PStr (_picture_mode self));
        ("hdr_data", PStr (_hdr_data self));
        ("low_latency", PBool (_lowlatency_enabled self));
        ("input_mode", PStr (_input_mode self));
        ("lamp_power", PStr (_lamp_power self));
        ("input_level", PStr (_input_level self));
        ("installation_mode", PStr (_installation_mode self));
        ("color_mode", PStr (_color_mode self));
        ("eshift", PStr (_eshift self));
        ("model", PStr (_model_family self)) ]
  else
    dict_display
      [ ("power_state", PBool (_state self));
        ("picture_mode", PStr (_picture_mode self));
        ("low_latency", PBool (_lowlatency_enabled self));
        ("input_mode", PStr (_input_mode self));
        ("lamp_power", PStr (_lamp_power self));
        ("input_level", PStr (_input_level self));
        ("color_mode", PStr (_color_mode self));
        ("installation_mode", PStr (_installation_mode self));
        ("model", PStr (_model_family self)) ].

(** The three key sets of the attribute presentation. *)
Definition NZ_keys : gset string :=
  {[ "power_state"; "picture_mode"; "content_type"; "hdr_data";
     "hdr_processing"; "theater_optimizer"; "low_latency"; "input_mode";
     "laser_mode"; "input_level"; "color_mode"; "installation_mode";
     "eshift"; "model" ]}.

Definition NX_keys : gset string :=
  {[ "power_state"; "picture_mode"; "hdr_data"; "low_latency"; "input_mode";
     "lamp_power"; "input_level"; "installation_mode"; "color_mode";
     "eshift"; "model" ]}.

Definition base_keys : gset string :=
  {[ "power_state"; "picture_mode"; "low_latency"; "input_mode";
     "lamp_power"; "input_level"; "color_mode"; "installation_mode";
     "model" ]}.

(** ** Attribute assignment: [self._x = v] *)

Definition set_state (v : bool) (self : JVCRemote) : JVCRemote :=
  {| _name := _name self; _host := _host self; _state := v;
     _lowlatency_enabled := _lowlatency_enabled self;
     _installation_mode := _installation_mode self;
     _picture_mode := _picture_mode self; _input_mode := _input_mode self;
     _laser_mode := _laser_mode self; _eshift := _eshift self;
     _color_mode := _color_mode self; _input_level := _input_level self;
     _content_type := _content_type self;
     _hdr_processing := _hdr_processing self;
     _lamp_power := _lamp_power self; _hdr_data := _hdr_data self;
     _theater_optimizer := _theater_optimizer self;
     _model_family := _model_family self |}.

Definition set_lowlatency_enabled (v : bool) (self : JVCRemote) : JVCRemote :=
  {| _name := _name self; _host := _host self; _state := _state self;
     _lowlatency_enabled := v; _installation_mode := _installation_mode self;
     _picture_mode := _picture_mode self; _input_mode := _input_mode self;
     _laser_mode := _laser_mode self; _eshift := _eshift self;
     _color_mode := _color_mode self; _input_level := _input_level self;
     _content_type := _content_type self;
     _hdr_processing := _hdr_processing self;
     _lamp_power := _lamp_power self; _hdr_data := _hdr_data self;
     _theater_optimizer := _theater_optimizer self;
     _model_family := _model_family self |}.

Definition set_installation_mode (v : string) (self : JVCRemote) : JVCRemote :=
  {| _name := _name self; _host := _host self; _state := _state self;
     _lowlatency_enabled := _lowlatency_enabled self;
     _installation_mode := v; _picture_mode := _picture_mode self;
     _input_mode := _input_mode self; _laser_mode := _laser_mode self;
     _eshift := _eshift self; _color_mode := _color_mode self;
     _input_level := _input_level self; _content_type := _content_type self;
     _hdr_processing := _hdr_processing self;
     _lamp_power := _lamp_power self; _hdr_data := _hdr_data self;
     _theater_optimizer := _theater_optimizer self;
     _model_family := _model_family self |}.

Definition set_picture_mode (v : string) (self : JVCRemote) : JVCRemote :=
  {| _name := _name self; _host := _host self; _state := _state self;
     _lowlatency_enabled := _lowlatency_enabled self;
     _installation_mode := _installation_mode self; _picture_mode := v;
     _input_mode := _input_mode self; _laser_mode := _laser_mode self;
     _eshift := _eshift self; _color_mode := _color_mode self;
     _input_level := _input_level self; _content_type := _content_type self;
     _hdr_processing := _hdr_processing self;
     _lamp_power := _lamp_power self; _hdr_data := _hdr_data self;
     _theater_optimizer := _theater_optimizer self;
     _model_family := _model_family self |}.

Definition set_input_mode (v : string) (self : JVCRemote) : JVCRemote :=
  {| _name := _name self; _host := _host self; _state := _state self;
     _lowlatency_enabled := _lowlatency_enabled self;
     _installation_mode := _installation_mode self;
     _picture_mode := _picture_mode self; _input_mode := v;
     _laser_mode := _laser_mode self; _eshift := _eshift self;
     _color_mode := _color_mode self; _input_level := _input_level self;
     _content_type := _content_type self;
     _hdr_processing := _hdr_processing self;
     _lamp_power := _lamp_power self; _hdr_data := _hdr_data self;
     _theater_optimizer := _theater_optimizer self;
     _model_family := _model_family self |}.

Definition set_laser_mode (v : string) (self : JVCRemote) : JVCRemote :=
  {| _name := _name self; _host := _host self; _state := _state self;
     _lowlatency_enabled := _lowlatency_enabled self;
     _installation_mode := _installation_mode self;
     _picture_mode := _picture_mode self; _input_mode := _input_mode self;
     _laser_mode := v; _eshift := _eshift self;
     _color_mode := _color_mode self; _input_level := _input_level self;
     _content_type := _content_type self;
     _hdr_processing := _hdr_processing self;
     _lamp_power := _lamp_power self; _hdr_data := _hdr_data self;
     _theater_optimizer := _theater_optimizer self;
     _model_family := _model_family self |}.

Definition set_eshift (v : string) (self : JVCRemote) : JVCRemote :=
  {| _name := _name self; _host := _host self; _state := _state self;
     _lowlatency_enabled := _lowlatency_enabled self;
     _installation_mode := _installation_mode self;
     _picture_mode := _picture_mode self; _input_mode := _input_mode self;
     _laser_mode := _laser_mode self; _eshift := v;
     _color_mode := _color_mode self; _input_level := _input_level self;
     _content_type := _content_type self;
     _hdr_processing := _hdr_processing self;
     _lamp_power := _lamp_power self; _hdr_data := _hdr_data self;
     _theater_optimizer := _theater_optimizer self;
     _model_family := _model_family self |}.

Definition set_color_mode (v : string) (self : JVCRemote) : JVCRemote :=
  {| _name := _name self; _host := _host self; _state := _state self;
     _lowlatency_enabled := _lowlatency_enabled self;
     _installation_mode := _installation_mode self;
     _picture_mode := _picture_mode self; _input_mode := _input_mode self;
     _laser_mode := _laser_mode self; _eshift := _eshift self;
     _color_mode := v; _input_level := _input_level self;
     _content_type := _content_type self;
     _hdr_processing := _hdr_processing self;
     _lamp_power := _lamp_power self; _hdr_data := _hdr_data self;
     _theater_optimizer := _theater_optimizer self;
     _model_family := _model_family self |}.

Definition set_input_level (v : string) (self : JVCRemote) : JVCRemote :=
  {| _name := _name self; _host := _host self; _state := _state self;
     _lowlatency_enabled := _lowlatency_enabled self;
     _installation_mode := _installation_mode self;
     _picture_mode := _picture_mode self; _input_mode := _input_mode self;
     _laser_mode := _laser_mode self; _eshift := _eshift self;
     _color_mode := _color_mode self; _input_level := v;
     _content_type := _content_type self;
     _hdr_processing := _hdr_processing self;
     _lamp_power := _lamp_power self; _hdr_data := _hdr_data self;
     _theater_optimizer := _theater_optimizer self;
     _model_family := _model_family self |}.

Definition set_content_type (v : string) (self : JVCRemote) : JVCRemote :=
  {| _name := _name self; _host := _host self; _state := _state self;
     _lowlatency_enabled := _lowlatency_enabled self;
     _installation_mode := _installation_mode self;
     _picture_mode := _picture_mode self; _input_mode := _input_mode self;
     _laser_mode := _laser_mode self; _eshift := _eshift self;
     _color_mode := _color_mode self; _input_level := _input_level self;
     _content_type := v; _hdr_processing := _hdr_processing self;
     _lamp_power := _lamp_power self; _hdr_data := _hdr_data self;
     _theater_optimizer := _theater_optimizer self;
     _model_family := _model_family self |}.

Definition set_hdr_processing (v : string) (self : JVCRemote) : JVCRemote :=
  {| _name := _name self; _host := _host self; _state := _state self;
     _lowlatency_enabled := _lowlatency_enabled self;
     _installation_mode := _installation_mode self;
     _picture_mode := _picture_mode self; _input_mode := _input_mode self;
     _laser_mode := _laser_mode self; _eshift := _eshift self;
     _color_mode := _color_mode self; _input_level := _input_level self;
     _content_type := _content_type self; _hdr_processing := v;
     _lamp_power := _lamp_power self; _hdr_data := _hdr_data self;
     _theater_optimizer := _theater_optimizer self;
     _model_family := _model_family self |}.

Definition set_lamp_power (v : string) (self : JVCRemote) : JVCRemote :=
  {| _name := _name self; _host := _host self; _state := _state self;
     _lowlatency_enabled := _lowlatency_enabled self;
     _installation_mode := _installation_mode self;
     _picture_mode := _picture_mode self; _input_mode := _input_mode self;
     _laser_mode := _laser_mode self; _eshift := _eshift self;
     _color_mode := _color_mode self; _input_level := _input_level self;
     _content_type := _content_type self;
     _hdr_processing := _hdr_processing self; _lamp_power := v;
     _hdr_data := _hdr_data self;
     _theater_optimizer := _theater_optimizer self;
     _model_family := _model_family self |}.

Definition set_hdr_data (v : string) (self : JVCRemote) : JVCRemote :=
  {| _name := _name self; _host := _host self; _state := _state self;
     _lowlatency_enabled := _lowlatency_enabled self;
     _installation_mode := _installation_mode self;
     _picture_mode := _picture_mode self; _input_mode := _input_mode self;
     _laser_mode := _laser_mode self; _eshift := _eshift self;
     _color_mode := _color_mode self; _input_level := _input_level self;
     _content_type := _content_type self;
     _hdr_processing := _hdr_processing self;
     _lamp_power := _lamp_power self; _hdr_data := v;
     _theater_optimizer := _theater_optimizer self;
     _model_family := _model_family self |}.

Definition set_theater_optimizer (v : string) (self : JVCRemote) : JVCRemote :=
  {| _name := _name self; _host := _host self; _state := _state self;
     _lowlatency_enabled := _lowlatency_enabled self;
     _installation_mode := _installation_mode self;
     _picture_mode := _picture_mode self; _input_mode := _input_mode self;
     _laser_mode := _laser_mode self; _eshift := _eshift self;
     _color_mode := _color_mode self; _input_level := _input_level self;
     _content_type := _content_type self;
     _hdr_processing := _hdr_processing self;
     _lamp_power := _lamp_power self; _hdr_data := _hdr_data self;
     _theater_optimizer := v; _model_family := _model_family self |}.

(** ** The projector client *)

(** Outcome of a call that may raise. *)
Inductive exception : Type := Exception (what : string).

Inductive result (A : Type) : Type :=
| Ok (a : A)
| Raise (e : exception).
Arguments Ok {A} a.
Arguments Raise {A} e.

Definition result_map {A B : Type} (f : A → B) (r : result A) : result B :=
  match r with
  | Ok a => Ok (f a)
  | Raise e => Raise e
  end.

Module JVCProjector.

(** The methods of the client object the entity calls. *)
Inductive method : Type :=
| power_on
| power_off
| exec_command (command : list string)
| is_on
| is_ll_on
| get_install_mode
| get_input_mode
| get_color_mode
| get_input_level
| get_picture_mode
| get_content_type
| get_laser_mode
| get_hdr_processing
| get_theater_optimizer_state
| get_lamp_power
| get_eshift_mode
| get_hdr_data.

#[global] Instance method_eq_dec : EqDecision method.
Proof. solve_decision. Defined.

(** What a method answers when it does not raise. *)
Definition ret (m : method) : Type :=
  match m with
  | power_on | power_off | exec_command _ => unit
  | is_on | is_ll_on => bool
  | _ => string
  end.

Definition to_pyval {m : method} : ret m → pyval :=
  match m with
  | power_on | power_off | exec_command _ => λ _, PNone
  | is_on | is_ll_on => PBool
  | _ => PStr
  end.

(** A client: some connection state, and for each method the outcome of
    a call together with the connection state it leaves. *)
Record client : Type := {
  conn : Type;
  model_family : string;
  respond : ∀ m : method, conn → result (ret m) * conn
}.

End JVCProjector.

Import JVCProjector (method, client, conn, respond).

(** One call made to the client, with its outcome. *)
Definition event : Type := method * result pyval.

(** The calls to [m] among [tr]. *)
Definition invocations (m : method) (tr : list event) : nat :=
  length (filter (λ ev : event, ev.1 = m) tr).

(** [m] was called in [tr] and answered [v]. *)
Definition returned (m : method) (v : pyval) (tr : list event) : Prop :=
  In (m, Ok v) tr.

Section Entity.

Context (cl : client).

(** The entity, the client object it refers to, and the calls made to
    that client so far (oldest first). *)
Record world : Type := mkWorld {
  self : JVCRemote;
  jvc_client : conn cl;
  calls : list event
}.

(** A method body: it runs from a world to an outcome and the world it
    leaves; what was done before an exception stays done. *)
Definition M (A : Type) : Type := world → result A * world.

#[export] Instance M_ret : MRet M := λ A a w, (Ok a, w).

#[export] Instance M_bind : MBind M := λ A B k c w,
  match c w with
  | (Ok a, w') => k a w'
  | (Raise e, w') => (Raise e, w')
  end.

(** [self.jvc_client.m()] *)
Definition call (m : method) : M (JVCProjector.ret m) := λ w,
  let (r, c) := respond cl m (jvc_client w) in
  (r, {| self := self w;
         jvc_client := c;
         calls := calls w ++ [(m, result_map JVCProjector.to_pyval r)] |}).

(** [self._x] *)
Definition attr {A : Type} (x : JVCRemote → A) : M A := λ w,
  (Ok (x (self w)), w).

(** [self._x = v] *)
Definition assign (set_x : JVCRemote → JVCRemote) : M unit := λ w,
  (Ok tt, {| self := set_x (self w);
             jvc_client := jvc_client w;
             calls := calls w |}).

(** [self._x = self.jvc_client.m()] *)
Definition fetch (m : method)
    (set_x : JVCProjector.ret m → JVCRemote → JVCRemote) : M unit :=
  v ← call m; assign (set_x v).

Definition turn_on : M unit :=
  call JVCProjector.power_on;;
  assign (set_state true).

Definition turn_off : M unit :=
  call JVCProjector.power_off;;
  assign (set_state false).

Definition update : M unit :=
  fetch JVCProjector.is_on set_state;;
  st ← attr _state;
  if st : bool then
    fetch JVCProjector.is_ll_on set_lowlatency_enabled;;
    fetch JVCProjector.get_install_mode set_installation_mode;;
    fetch JVCProjector.get_input_mode set_input_mode;;
    fetch JVCProjector.get_color_mode set_color_mode;;
    fetch JVCProjector.get_input_level set_input_level;;
    fetch JVCProjector.get_picture_mode set_picture_mode;;
    family ← attr _model_family;
    (if str_in "NZ" family then
       fetch JVCProjector.get_content_type set_content_type;;
       fetch JVCProjector.get_laser_mode set_laser_mode;;
       content ← attr _content_type;
       if any_in ["hdr"; "hlg"] content then
         fetch JVCProjector.get_hdr_processing set_hdr_processing;;
         fetch JVCProjector.get_theater_optimizer_state set_theater_optimizer
       else mret tt
     else mret tt);;
    family ← attr _model_family;
    (if negb (str_in "NZ" family) then
       fetch JVCProjector.get_lamp_power set_lamp_power
     else mret tt);;
    family ← attr _model_family;
    if any_in ["NX"; "NZ"] family then
      fetch JVCProjector.get_eshift_mode set_eshift;;
      fetch JVCProjector.get_hdr_data set_hdr_data
    else mret tt
  else mret tt.

Definition send_command (command : list string) : M unit :=
  call (JVCProjector.exec_command command);;
  mret tt.

(** Reading the [extra_state_attributes] property. *)
Definition read_extra_state_attributes : M (gmap string pyval) :=
  attr extra_state_attributes.

(** The calls an operation made, given the world before and after. *)
Definition cycle (w w' : world) : list event :=
  drop (length (calls w)) (calls w').

End Entity.

Arguments self {cl} w.
Arguments jvc_client {cl} w.
Arguments calls {cl} w.
Arguments mkWorld {cl} _ _ _.
Arguments cycle {cl} w w'.

(** ** The cached snapshot, slot by slot *)

(** The fourteen attributes of the snapshot that [update] may assign. *)
Module Slot.
Inductive t : Type :=
| state
| lowlatency_enabled
| installation_mode
| picture_mode
| input_mode
| laser_mode
| eshift
| color_mode
| input_level
| content_type
| hdr_processing
| lamp_power
| hdr_data
| theater_optimizer.
End Slot.

(** The value held in a slot. *)
Definition slot_value (a : Slot.t) (s : JVCRemote) : pyval :=
  match a with
  | Slot.state => PBool (_state s)
  | Slot.lowlatency_enabled => PBool (_lowlatency_enabled s)
  | Slot.installation_mode => PStr (_installation_mode s)
  | Slot.picture_mode => PStr (_picture_mode s)
  | Slot.input_mode => PStr (_input_mode s)
  | Slot.laser_mode => PStr (_laser_mode s)
  | Slot.eshift => PStr (_eshift s)
  | Slot.color_mode => PStr (_color_mode s)
  | Slot.input_level => PStr (_input_level s)
  | Slot.content_type => PStr (_content_type s)
  | Slot.hdr_processing => PStr (_hdr_processing s)
  | Slot.lamp_power => PStr (_lamp_power s)
  | Slot.hdr_data => PStr (_hdr_data s)
  | Slot.theater_optimizer => PStr (_theater_optimizer s)
  end.

(** The client method whose answer [update] assigns to a slot. *)
Definition slot_getter (a : Slot.t) : method :=
  match a with
  | Slot.state => JVCProjector.is_on
  | Slot.lowlatency_enabled => JVCProjector.is_ll_on
  | Slot.installation_mode => JVCProjector.get_install_mode
  | Slot.picture_mode => JVCProjector.get_picture_mode
  | Slot.input_mode => JVCProjector.get_input_mode
  | Slot.laser_mode => JVCProjector.get_laser_mode
  | Slot.eshift => JVCProjector.get_eshift_mode
  | Slot.color_mode => JVCProjector.get_color_mode
  | Slot.input_level => JVCProjector.get_input_level
  | Slot.content_type => JVCProjector.get_content_type
  | Slot.hdr_processing => JVCProjector.get_hdr_processing
  | Slot.lamp_power => JVCProjector.get_lamp_power
  | Slot.hdr_data => JVCProjector.get_hdr_data
  | Slot.theater_optimizer => JVCProjector.get_theater_optimizer_state
  end.

(** The queries of [update] in the order its body lists them. *)
Definition query_sequence : list method :=
  [ JVCProjector.is_on;
    JVCProjector.is_ll_on;
    JVCProjector.get_install_mode;
    JVCProjector.get_input_mode;
    JVCProjector.get_color_mode;
    JVCProjector.get_input_level;
    JVCProjector.get_picture_mode;
    JVCProjector.get_content_type;
    JVCProjector.get_laser_mode;
    JVCProjector.get_hdr_processing;
    JVCProjector.get_theater_optimizer_state;
    JVCProjector.get_lamp_power;
    JVCProjector.get_eshift_mode;
    JVCProjector.get_hdr_data ].

(** Position of a query in [query_sequence]. *)
Definition rank (m : method) : option nat :=
  fst <$> list_find (λ x, x = m) query_sequence.

(** [g] is listed at or after [m] in [query_sequence]. *)
Definition not_before (g m : method) : Prop :=
  match rank m, rank g with
  | Some i, Some j => i ≤ j
  | _, _ => False
  end.

(** The key under which [extra_state_attributes] reports a slot (in the
    views that report it). *)
Definition slot_key (a : Slot.t) : string :=
  match a with
  | Slot.state => "power_state"
  | Slot.lowlatency_enabled => "low_latency"
  | Slot.installation_mode => "installation_mode"
  | Slot.picture_mode => "picture_mode"
  | Slot.input_mode => "input_mode"
  | Slot.laser_mode => "laser_mode"
  | Slot.eshift => "eshift"
  | Slot.color_mode => "color_mode"
  | Slot.input_level => "input_level"
  | Slot.content_type => "content_type"
  | Slot.hdr_processing => "hdr_processing"
  | Slot.lamp_power => "lamp_power"
  | Slot.hdr_data => "hdr_data"
  | Slot.theater_optimizer => "theater_optimizer"
  end.

(** ** Concrete clients *)

(** A client with fixed answers: [on] to the power query, [content] to the
    content-type query, and an exception from every method in [broken]. *)
Definition canned_answer (on : bool) (content : string) (m : method)
    : JVCProjector.ret m :=
  match m with
  | JVCProjector.power_on => tt
  | JVCProjector.power_off => tt
  | JVCProjector.exec_command _ => tt
  | JVCProjector.is_on => on
  | JVCProjector.is_ll_on => true
  | JVCProjector.get_install_mode => "mode1"
  | JVCProjector.get_input_mode => "hdmi1"
  | JVCProjector.get_color_mode => "auto"
  | JVCProjector.get_input_level => "standard"
  | JVCProjector.get_picture_mode => "frame_adapt_hdr"
  | JVCProjector.get_content_type => content
  | JVCProjector.get_laser_mode => "high"
  | JVCProjector.get_hdr_processing => "frame_by_frame"
  | JVCProjector.get_theater_optimizer_state => "on"
  | JVCProjector.get_lamp_power => "low"
  | JVCProjector.get_eshift_mode => "off"
  | JVCProjector.get_hdr_data => "hdr10"
  end.

Definition canned (family : string) (on : bool) (content : string)
    (broken : list method) : client :=
  {| JVCProjector.conn := nat;
     JVCProjector.model_family := family;
     JVCProjector.respond m n :=
       (if bool_decide (m ∈ broken)
        then Raise (Exception "timeout")
        else Ok (canned_answer on content m),
        S n) |}.

(** The world right after platform setup: a fresh entity bound to [cl]. *)
Definition fresh_world (cl : client) (c : conn cl) : world cl :=
  mkWorld (JVCRemote_init "Projector" "192.168.1.20"
             (JVCProjector.model_family cl)) c [].

(** * Properties *)

(** ** Substring test *)

Lemma str_in_prefix (needle hay : string) :
  String.prefix needle hay = true → str_in needle hay = true.
Proof. intros H. destruct hay; unfold str_in; fold str_in; rewrite H; reflexivity. Qed.

Lemma prefix_append (needle rest : string) :
  String.prefix needle (needle +:+ rest) = true.
Proof.
  induction needle as [|c needle IH]; simpl.
  - by destruct rest.
  - destruct (Ascii.ascii_dec c c); [done | congruence].
Qed.

Lemma prefix_split (needle hay : string) :
  String.prefix needle hay = true → ∃ rest, hay = needle +:+ rest.
Proof.
  revert hay. induction needle as [|c needle IH]; intros hay; simpl.
  - intros _. by exists hay.
  - destruct hay as [|d hay]; simpl; [done|].
    destruct (Ascii.ascii_dec c d) as [->|]; [|done].
    intros [rest ->]%IH. by exists rest.
Qed.

Lemma str_in_nil (needle : string) :
  str_in needle "" = String.prefix needle "".
Proof. unfold str_in. apply orb_false_r. Qed.

Lemma str_in_cons (needle : string) (c : Ascii.ascii) (hay : string) :
  str_in needle (String c hay)
  = String.prefix needle (String c hay) || str_in needle hay.
Proof. reflexivity. Qed.

(** [str_in] is substring occurrence: [hay] splits around a copy of
    [needle]. *)
Lemma str_in_spec (needle hay : string) :
  str_in needle hay = true ↔ ∃ before after, hay = before +:+ needle +:+ after.
Proof.
  split.
  - induction hay as [|c hay IH].
    + rewrite str_in_nil. intros [rest ->]%prefix_split. by exists "", rest.
    + rewrite str_in_cons. intros [H|H]%orb_true_iff.
      * apply prefix_split in H as [rest ->]. by exists "", rest.
      * destruct (IH H) as (b & a & ->). by exists (String c b), a.
  - intros (before & after & ->).
    induction before as [|c before IH].
    + change ("" +:+ needle +:+ after) with (needle +:+ after).
      apply str_in_prefix, prefix_append.
    + change (String c before +:+ needle +:+ after)
        with (String c (before +:+ needle +:+ after)).
      rewrite str_in_cons, IH. apply orb_true_r.
Qed.

Example str_in_family : str_in "NZ" "B5A3-NZ8" = true.
Proof. reflexivity. Qed.

Example str_in_case_sensitive : str_in "NZ" "b5a3-nz8" = false.
Proof. reflexivity. Qed.

Example str_in_empty_hay : str_in "on" "" = false.
Proof. reflexivity. Qed.

Example str_in_empty_needle : str_in "" "off" = true.
Proof. reflexivity. Qed.

(** ** Dict displays *)

Lemma dom_dict_display (items : list (string * pyval)) :
  dom (dict_display items) = list_to_set (items.*1).
Proof.
  unfold dict_display.
  assert (G : ∀ (d : gmap string pyval),
             dom (foldl (λ d kv, <[kv.1 := kv.2]> d) d items)
             = list_to_set (items.*1) ∪ dom d).
  { induction items as [|[k v] items IH]; intros d; simpl.
    - set_solver.
    - rewrite IH, dom_insert_L. set_solver. }
  rewrite G, dom_empty_L. set_solver.
Qed.

(** With distinct keys, every entry of the display is found under its key. *)
Lemma lookup_dict_display (items : list (string * pyval)) (k : string) (v : pyval) :
  NoDup (items.*1) → (k, v) ∈ items → dict_display items !! k = Some v.
Proof.
  unfold dict_display.
  assert (G : ∀ (d : gmap string pyval),
             NoDup (items.*1) →
             foldl (λ d kv, <[kv.1 := kv.2]> d) d items !! k
             = match list_to_map (M := gmap string pyval) items !! k with
               | Some x => Some x
               | None => d !! k
               end).
  { induction items as [|[k' v'] items IH]; intros d Hnd; simpl.
    - by rewrite lookup_empty.
    - apply NoDup_cons in Hnd as [Hk' Hnd]. rewrite (IH _ Hnd).
      destruct (decide (k' = k)) as [->|Hne].
      + rewrite !lookup_insert_eq.
        by rewrite (not_elem_of_list_to_map_1 _ _ Hk').
      + by rewrite !lookup_insert_ne. }
  intros Hnd Hin. rewrite (G _ Hnd).
  by rewrite (elem_of_list_to_map_1 _ _ _ Hnd Hin).
Qed.

(** ** Attribute presentation *)

(** C1: for every entity state the key set of [extra_state_attributes] is
    fixed by the model-family string alone: the fourteen NZ keys when the
    family contains "NZ"; otherwise the eleven NX keys when it contains
    "NX"; otherwise the nine base keys. *)
Theorem extra_state_attributes_keys (s : JVCRemote) :
  dom (extra_state_attributes s)
  = if str_in "NZ" (_model_family s) then NZ_keys
    else if str_in "NX" (_model_family s) then NX_keys
    else base_keys.
Proof.
  unfold extra_state_attributes.
  destruct (str_in "NZ" (_model_family s));
    [| destruct (str_in "NX" (_model_family s))];
    rewrite dom_dict_display; simpl;
    unfold NZ_keys, NX_keys, base_keys; set_solver.
Qed.

(** Two entity states with the same snapshot and the same model family
    present the same attributes, whatever their name and host. *)
Lemma extra_state_attributes_ext (s1 s2 : JVCRemote) :
  (∀ a, slot_value a s1 = slot_value a s2) →
  _model_family s1 = _model_family s2 →
  extra_state_attributes s1 = extra_state_attributes s2.
Proof.
  intros Hslots Hfam. unfold extra_state_attributes. rewrite Hfam.
  pose proof (Hslots Slot.state).
  pose proof (Hslots Slot.lowlatency_enabled).
  pose proof (Hslots Slot.installation_mode).
  pose proof (Hslots Slot.picture_mode).
  pose proof (Hslots Slot.input_mode).
  pose proof (Hslots Slot.laser_mode).
  pose proof (Hslots Slot.eshift).
  pose proof (Hslots Slot.color_mode).
  pose proof (Hslots Slot.input_level).
  pose proof (Hslots Slot.content_type).
  pose proof (Hslots Slot.hdr_processing).
  pose proof (Hslots Slot.lamp_power).
  pose proof (Hslots Slot.hdr_data).
  pose proof (Hslots Slot.theater_optimizer).
  simpl in *. clear Hslots.
  repeat match goal with
         | H : PBool _ = PBool _ |- _ => injection H as ->
         | H : PStr _ = PStr _ |- _ => injection H as ->
         end.
  reflexivity.
Qed.

(** C7: reading [extra_state_attributes] raises nothing, leaves the whole
    world as it was (no entity field changes and no call reaches the
    client), and its result depends only on the cached snapshot and the
    model family: two entities that agree on those, bound to any two
    clients, read the same dict. *)
Theorem extra_state_attributes_pure (cl1 cl2 : client)
    (w1 : world cl1) (w2 : world cl2) :
  (∀ a, slot_value a (self w1) = slot_value a (self w2)) →
  _model_family (self w1) = _model_family (self w2) →
  ∃ d, read_extra_state_attributes cl1 w1 = (Ok d, w1)
       ∧ read_extra_state_attributes cl2 w2 = (Ok d, w2).
Proof.
  intros Hslots Hfam. exists (extra_state_attributes (self w1)).
  unfold read_extra_state_attributes, attr.
  by rewrite (extra_state_attributes_ext _ _ Hslots Hfam).
Qed.

Lemma extra_state_attributes_pure_witness :
  let w1 := mkWorld (JVCRemote_init "Cinema" "10.0.0.5" "DLA-NX7")
              (0 : conn (canned "DLA-NX7" true "sdr" [])) [] in
  let w2 := mkWorld (JVCRemote_init "Den" "10.0.0.9" "DLA-NX7")
              (4 : conn (canned "DLA-NX7" false "hlg" [JVCProjector.is_on]))
              [(JVCProjector.power_on, Ok PNone)] in
  ((∀ a, slot_value a (self w1) = slot_value a (self w2))
   ∧ _model_family (self w1) = _model_family (self w2))
  ∧ ∃ d, read_extra_state_attributes _ w1 = (Ok d, w1)
         ∧ read_extra_state_attributes _ w2 = (Ok d, w2).
Proof.
  intros w1 w2.
  assert (H1 : ∀ a, slot_value a (self w1) = slot_value a (self w2))
    by (intros []; reflexivity).
  assert (H2 : _model_family (self w1) = _model_family (self w2))
    by reflexivity.
  split; [split; assumption |].
  exact (extra_state_attributes_pure _ _ w1 w2 H1 H2).
Defined.

(** C10: for a family containing "NZ" the "theater_optimizer" entry is
    the boolean [("on" in self._theater_optimizer)], never the cached
    string; with the initial empty string it is [False]. *)
Theorem theater_optimizer_entry (s : JVCRemote) :
  str_in "NZ" (_model_family s) = true →
  extra_state_attributes s !! "theater_optimizer"
    = Some (PBool (str_in "on" (_theater_optimizer s)))
  ∧ extra_state_attributes s !! "theater_optimizer"
    ≠ Some (PStr (_theater_optimizer s))
  ∧ (_theater_optimizer s = "" →
     extra_state_attributes s !! "theater_optimizer" = Some (PBool false)).
Proof.
  intros HNZ.
  assert (E : extra_state_attributes s !! "theater_optimizer"
              = Some (PBool (str_in "on" (_theater_optimizer s)))).
  { unfold extra_state_attributes. rewrite HNZ.
    apply lookup_dict_display.
    - simpl. apply (bool_decide_unpack _). by vm_compute.
    - set_solver. }
  rewrite E. split_and!; [done | done |].
  intros ->. reflexivity.
Qed.

Lemma theater_optimizer_entry_witness :
  let s := JVCRemote_init "Projector" "192.168.1.20" "B5A3-NZ8" in
  str_in "NZ" (_model_family s) = true
  ∧ extra_state_attributes s !! "theater_optimizer" = Some (PBool false).
Proof.
  intros s.
  assert (HNZ : str_in "NZ" (_model_family s) = true) by reflexivity.
  split; [exact HNZ |].
  exact (proj2 (proj2 (theater_optimizer_entry s HNZ)) eq_refl).
Defined.

(** ** Running an operation against an arbitrary client *)

Lemma cycle_app (cl : client) (w w' : world cl) (tr : list event) :
  calls w' = calls w ++ tr → cycle w w' = tr.
Proof. unfold cycle. intros ->. apply drop_app_length. Qed.

(** Expose the state-passing form of an operation. *)
Ltac unfold_ops :=
  unfold update, turn_on, turn_off, fetch, call, assign, attr,
         mbind, M_bind, mret, M_ret;
  cbn.

(** Split on the outcome of the next client call, or on the next test
    (a substring test already decided is not split again). *)
Ltac run_step :=
  match goal with
  | H : str_in ?x ?y = _ |- context [str_in ?x ?y] => rewrite H; cbn
  | |- context [respond ?cl ?m ?c] =>
      let v := fresh "v" in
      let e := fresh "e" in
      let c' := fresh "c" in
      let E := fresh "E" in
      destruct (respond cl m c) as [[v|e] c'] eqn:E; cbn
  | |- context [if ?b then _ else _] =>
      let B := fresh "B" in
      destruct b eqn:B; cbn
  end.

(** Replace [cycle w w'] by the list of calls made since [w]. *)
Ltac norm_cycle :=
  repeat erewrite cycle_app
    by (cbn; rewrite <- ?(assoc_L (++)); cbn; reflexivity).

Ltac run_all := unfold_ops; repeat run_step; norm_cycle.

(** Case analysis on a [returned] fact about an explicit list of calls:
    one goal per call that can match. *)
Ltac case_returned H :=
  unfold returned in H; cbn in H;
  repeat (destruct H as [H|H]; [try discriminate H |]);
  try contradiction.

(** A proof of [returned m v tr] for an explicit [tr]. *)
Ltac show_returned :=
  unfold returned; cbn; repeat (first [left; reflexivity | right]).

(** ** Power commands *)

(** C2, amended: [turn_on] makes exactly one call to the client, the
    power-on command, and no read of the device state; if that call
    returns, [is_on] becomes true, whatever it was and whatever the
    command answered, and no other attribute changes. *)
Theorem turn_on_optimistic (cl : client) (w : world cl) :
  let out := (respond cl JVCProjector.power_on (jvc_client w)).1 in
  let w' := (turn_on cl w).2 in
  cycle w w' = [(JVCProjector.power_on, result_map JVCProjector.to_pyval out)]
  ∧ (∀ v, out = Ok v →
       (turn_on cl w).1 = Ok tt
       ∧ is_on (self w') = true
       ∧ self w' = set_state true (self w)).
Proof.
  cbn. run_all; split; try done; intros ? [=].
Qed.

Lemma turn_on_optimistic_witness :
  let cl := canned "DLA-NX5" false "sdr" [] in
  let w := fresh_world cl 0 in
  (respond cl JVCProjector.power_on (jvc_client w)).1 = Ok tt
  ∧ cycle w (turn_on cl w).2 = [(JVCProjector.power_on, Ok PNone)]
  ∧ is_on (self w) = false
  ∧ is_on (self (turn_on cl w).2) = true.
Proof.
  intros cl w.
  destruct (turn_on_optimistic cl w) as [Hcalls Hset].
  destruct (Hset tt eq_refl) as (_ & Hon & _).
  split_and!; [reflexivity | exact Hcalls | reflexivity | exact Hon].
Defined.

(** C2 as stated fails: when the power-on command raises, [is_on] stays
    false. *)
Lemma turn_on_raise_stays_off :
  let cl := canned "B5A3-NZ8" false "sdr" [JVCProjector.power_on] in
  let w := fresh_world cl 0 in
  (respond cl JVCProjector.power_on (jvc_client w)).1
    = Raise (Exception "timeout")
  ∧ (turn_on cl w).1 = Raise (Exception "timeout")
  ∧ is_on (self w) = false
  ∧ is_on (self (turn_on cl w).2) = false.
Proof. by vm_compute. Qed.

(** C8: when the power-on (power-off) command raises, [turn_on]
    ([turn_off]) raises the same exception and leaves every field of the
    entity, [is_on] included, as it was. *)
Theorem power_command_raise_frame (cl : client) (w : world cl) (e : exception) :
  ((respond cl JVCProjector.power_on (jvc_client w)).1 = Raise e →
   (turn_on cl w).1 = Raise e ∧ self (turn_on cl w).2 = self w)
  ∧ ((respond cl JVCProjector.power_off (jvc_client w)).1 = Raise e →
     (turn_off cl w).1 = Raise e ∧ self (turn_off cl w).2 = self w).
Proof.
  split; run_all; cbn; intros [=]; by subst.
Qed.

Lemma power_command_raise_frame_witness :
  let cl := canned "DLA-NX5" true "sdr"
              [JVCProjector.power_on; JVCProjector.power_off] in
  let w := mkWorld (set_state true (JVCRemote_init "Den" "10.0.0.9" "DLA-NX5"))
             (7 : conn cl) [] in
  let e := Exception "timeout" in
  ((respond cl JVCProjector.power_on (jvc_client w)).1 = Raise e
   ∧ (turn_on cl w).1 = Raise e ∧ self (turn_on cl w).2 = self w)
  ∧ ((respond cl JVCProjector.power_off (jvc_client w)).1 = Raise e
     ∧ (turn_off cl w).1 = Raise e ∧ self (turn_off cl w).2 = self w).
Proof.
  intros cl w e.
  destruct (power_command_raise_frame cl w e) as [Hon Hoff].
  split.
  - split; [reflexivity | apply Hon; reflexivity].
  - split; [reflexivity | apply Hoff; reflexivity].
Defined.

(** ** Polling *)

(** C3: when the power query answers false, [update] succeeds having made
    that single call (no attribute getter is invoked), records the power
    state as off, and leaves every other slot of the snapshot as it
    was: the entity differs from the one before the poll in [_state]
    only. *)
Theorem update_device_off (cl : client) (w : world cl) :
  (respond cl JVCProjector.is_on (jvc_client w)).1 = Ok false →
  let w' := (update cl w).2 in
  (update cl w).1 = Ok tt
  ∧ cycle w w' = [(JVCProjector.is_on, Ok (PBool false))]
  ∧ is_on (self w') = false
  ∧ (∀ a, a ≠ Slot.state → slot_value a (self w') = slot_value a (self w))
  ∧ self w' = set_state false (self w).
Proof.
  cbn. unfold_ops.
  destruct (respond cl JVCProjector.is_on (jvc_client w)) as [[v|e] c] eqn:E;
    cbn; intros [=]; subst v; cbn.
  norm_cycle. split_and!; try done.
  by intros [].
Qed.

Lemma update_device_off_witness :
  let cl := canned "B5A3-NZ8" false "hdr" [] in
  let w := mkWorld
             (set_theater_optimizer "on"
                (set_picture_mode "cinema"
                   (set_state true
                      (JVCRemote_init "Den" "10.0.0.9" "B5A3-NZ8"))))
             (3 : conn cl) [(JVCProjector.power_off, Ok PNone)] in
  (respond cl JVCProjector.is_on (jvc_client w)).1 = Ok false
  ∧ (update cl w).1 = Ok tt
  ∧ cycle w (update cl w).2 = [(JVCProjector.is_on, Ok (PBool false))]
  ∧ is_on (self (update cl w).2) = false
  ∧ (∀ a, a ≠ Slot.state →
       slot_value a (self (update cl w).2) = slot_value a (self w)).
Proof.
  intros cl w.
  assert (H : (respond cl JVCProjector.is_on (jvc_client w)).1 = Ok false)
    by reflexivity.
  split; [exact H |].
  destruct (update_device_off cl w H) as (H1 & H2 & H3 & H4 & _).
  by split_and!.
Defined.

(** C4: in a poll with the device on and a family containing "NZ", when
    the content type answered in that cycle contains neither "hdr" nor
    "hlg", neither the HDR-processing getter nor the theater-optimizer
    getter is invoked in that cycle. *)
Theorem update_NZ_without_hdr_content (cl : client) (w : world cl)
    (content : string) :
  let tr := cycle w (update cl w).2 in
  str_in "NZ" (_model_family (self w)) = true →
  returned JVCProjector.is_on (PBool true) tr →
  returned JVCProjector.get_content_type (PStr content) tr →
  str_in "hdr" content = false →
  str_in "hlg" content = false →
  invocations JVCProjector.get_hdr_processing tr = 0
  ∧ invocations JVCProjector.get_theater_optimizer_state tr = 0.
Proof.
  cbn. intros HNZ Hon Hct Hhdr Hhlg. revert Hon Hct.
  unfold_ops.
  repeat run_step; norm_cycle; intros _ Hct; try congruence;
    try (split; reflexivity);
    exfalso; unfold returned in Hct; cbn in Hct;
    repeat (destruct Hct as [Hct|Hct]; try discriminate);
    try done;
    injection Hct as ->; rewrite Hhdr, Hhlg in *; discriminate.
Qed.

Lemma update_NZ_without_hdr_content_witness :
  let cl := canned "B5A3-NZ8" true "sdr" [] in
  let w := fresh_world cl 0 in
  let tr := cycle w (update cl w).2 in
  (str_in "NZ" (_model_family (self w)) = true
   ∧ returned JVCProjector.is_on (PBool true) tr
   ∧ returned JVCProjector.get_content_type (PStr "sdr") tr
   ∧ str_in "hdr" "sdr" = false
   ∧ str_in "hlg" "sdr" = false)
  ∧ invocations JVCProjector.get_hdr_processing tr = 0
  ∧ invocations JVCProjector.get_theater_optimizer_state tr = 0.
Proof.
  intros cl w tr.
  assert (HNZ : str_in "NZ" (_model_family (self w)) = true) by reflexivity.
  assert (Hon : returned JVCProjector.is_on (PBool true) tr)
    by (vm_compute; tauto).
  assert (Hct : returned JVCProjector.get_content_type (PStr "sdr") tr)
    by (vm_compute; tauto).
  assert (Hhdr : str_in "hdr" "sdr" = false) by reflexivity.
  assert (Hhlg : str_in "hlg" "sdr" = false) by reflexivity.
  split; [by split_and! |].
  exact (update_NZ_without_hdr_content cl w "sdr" HNZ Hon Hct Hhdr Hhlg).
Defined.

(** C5, amended: in a poll with the device on and a family containing
    "NZ", when the content type answered in that cycle contains "hlg":
    once the laser-mode getter has returned, the HDR-processing getter is
    invoked exactly once; once that has returned, its answer is the cached
    HDR-processing value and the theater-optimizer getter is invoked
    exactly once; once that has returned, its answer is the cached
    theater-optimizer value.  Neither getter is invoked more than once.
    In particular, when the cycle completes, both are invoked exactly once
    and their answers are the cached values. *)
Theorem update_NZ_hlg_content (cl : client) (w : world cl) (content : string) :
  let w' := (update cl w).2 in
  let tr := cycle w w' in
  str_in "NZ" (_model_family (self w)) = true →
  returned JVCProjector.is_on (PBool true) tr →
  returned JVCProjector.get_content_type (PStr content) tr →
  str_in "hlg" content = true →
  (invocations JVCProjector.get_hdr_processing tr ≤ 1
   ∧ invocations JVCProjector.get_theater_optimizer_state tr ≤ 1)
  ∧ (∀ l, returned JVCProjector.get_laser_mode l tr →
       invocations JVCProjector.get_hdr_processing tr = 1)
  ∧ (∀ h, returned JVCProjector.get_hdr_processing h tr →
       slot_value Slot.hdr_processing (self w') = h
       ∧ invocations JVCProjector.get_theater_optimizer_state tr = 1)
  ∧ (∀ t, returned JVCProjector.get_theater_optimizer_state t tr →
       slot_value Slot.theater_optimizer (self w') = t)
  ∧ ((update cl w).1 = Ok tt →
       invocations JVCProjector.get_hdr_processing tr = 1
       ∧ invocations JVCProjector.get_theater_optimizer_state tr = 1
       ∧ returned JVCProjector.get_hdr_processing
           (slot_value Slot.hdr_processing (self w')) tr
       ∧ returned JVCProjector.get_theater_optimizer_state
           (slot_value Slot.theater_optimizer (self w')) tr).
Proof.
  cbn. intros HNZ Hon Hct Hhlg. revert Hon Hct.
  unfold_ops.
  repeat run_step; norm_cycle; intros _ Hct; try congruence;
    case_returned Hct; injection Hct as ->;
    try (rewrite Hhlg, orb_true_r in *; discriminate);
    (split; [split; cbv; lia |]);
    (split; [intros l Hl; first [reflexivity | by case_returned Hl] |]);
    (split; [intros h Hh; first [by case_returned Hh | case_returned Hh;
                                 injection Hh as <-; by split] |]);
    (split; [intros t Ht; first [by case_returned Ht | case_returned Ht;
                                 injection Ht as <-; reflexivity] |]);
    intros Hdone; try discriminate Hdone;
    split_and!; try reflexivity; unfold returned; cbn; tauto.
Qed.

Lemma update_NZ_hlg_content_witness :
  let cl := canned "B5A3-NZ8" true "hlg" [] in
  let w := fresh_world cl 0 in
  let w' := (update cl w).2 in
  let tr := cycle w w' in
  (str_in "NZ" (_model_family (self w)) = true
   ∧ returned JVCProjector.is_on (PBool true) tr
   ∧ returned JVCProjector.get_content_type (PStr "hlg") tr
   ∧ str_in "hlg" "hlg" = true)
  ∧ invocations JVCProjector.get_hdr_processing tr = 1
  ∧ invocations JVCProjector.get_theater_optimizer_state tr = 1
  ∧ slot_value Slot.hdr_processing (self w') = PStr "frame_by_frame"
  ∧ slot_value Slot.theater_optimizer (self w') = PStr "on".
Proof.
  intros cl w w' tr.
  assert (HNZ : str_in "NZ" (_model_family (self w)) = true) by reflexivity.
  assert (Hon : returned JVCProjector.is_on (PBool true) tr)
    by (vm_compute; tauto).
  assert (Hct : returned JVCProjector.get_content_type (PStr "hlg") tr)
    by (vm_compute; tauto).
  assert (Hhlg : str_in "hlg" "hlg" = true) by reflexivity.
  split; [by split_and! |].
  destruct (update_NZ_hlg_content cl w "hlg" HNZ Hon Hct Hhlg)
    as (_ & _ & _ & _ & Hdone).
  destruct (Hdone eq_refl) as (H1 & H2 & _ & _).
  split_and!; [exact H1 | exact H2 | reflexivity | reflexivity].
Defined.

(** C5 as stated fails: with the device on, an "NZ" family and content
    type "hlg", a laser-mode getter that raises ends the cycle before
    either HDR getter is invoked. *)
Lemma update_NZ_hlg_laser_raises :
  let cl := canned "B5A3-NZ8" true "hlg" [JVCProjector.get_laser_mode] in
  let w := fresh_world cl 0 in
  let tr := cycle w (update cl w).2 in
  str_in "NZ" (_model_family (self w)) = true
  ∧ returned JVCProjector.is_on (PBool true) tr
  ∧ returned JVCProjector.get_content_type (PStr "hlg") tr
  ∧ str_in "hlg" "hlg" = true
  ∧ invocations JVCProjector.get_hdr_processing tr = 0
  ∧ invocations JVCProjector.get_theater_optimizer_state tr = 0.
Proof. vm_compute. tauto. Qed.

(** C6: in an update cycle where some query raises, [update] raises that
    same exception, the raising call is one of the listed queries and is
    the last call of the cycle;
    every slot whose getter is listed at or after the raising one keeps
    the value it had before the cycle; and every slot whose getter
    returned in the cycle holds the value just read. *)
Theorem update_raise_frame (cl : client) (w : world cl)
    (m : method) (e : exception) :
  let w' := (update cl w).2 in
  let tr := cycle w w' in
  In (m, Raise e) tr →
  (update cl w).1 = Raise e
  ∧ In m query_sequence
  ∧ last tr = Some (m, Raise e)
  ∧ (∀ a, not_before (slot_getter a) m →
       slot_value a (self w') = slot_value a (self w))
  ∧ (∀ a v, returned (slot_getter a) v tr → slot_value a (self w') = v).
Proof.
  cbn. unfold_ops.
  repeat run_step; norm_cycle; intros Hm;
    case_returned Hm; injection Hm as <- <-;
    (split; [reflexivity |]);
    (split; [cbn; tauto |]);
    (split; [reflexivity |]);
    (split;
     [ intros [] Hnb; first [reflexivity | by cbv in Hnb; lia]
     | intros [] x Hx; case_returned Hx; by injection Hx as <- ]).
Qed.

Lemma update_raise_frame_witness :
  let cl := canned "DLA-NX7" true "sdr" [JVCProjector.get_color_mode] in
  let w := mkWorld
             (set_color_mode "bt2020"
                (set_input_mode "hdmi2"
                   (set_lamp_power "high"
                      (JVCRemote_init "Den" "10.0.0.9" "DLA-NX7"))))
             (0 : conn cl) [] in
  let w' := (update cl w).2 in
  let e := Exception "timeout" in
  In (JVCProjector.get_color_mode, Raise e) (cycle w w')
  ∧ (update cl w).1 = Raise e
  ∧ slot_value Slot.color_mode (self w') = PStr "bt2020"
  ∧ slot_value Slot.lamp_power (self w') = PStr "high"
  ∧ slot_value Slot.input_mode (self w') = PStr "hdmi1".
Proof.
  intros cl w w' e.
  assert (Hm : In (JVCProjector.get_color_mode, Raise e) (cycle w w'))
    by (vm_compute; tauto).
  split; [exact Hm |].
  destruct (update_raise_frame cl w _ e Hm) as (Hr & _ & _ & Hkeep & Hnew).
  split_and!.
  - exact Hr.
  - apply (Hkeep Slot.color_mode). cbv. lia.
  - apply (Hkeep Slot.lamp_power). cbv. lia.
  - apply (Hnew Slot.input_mode). vm_compute. tauto.
Defined.

(** C9, amended: for a family containing both "NZ" and "NX" the NZ
    treatment applies.  The presented keys are the NZ ones (which differ
    from the NX ones).  No cycle calls the lamp-power getter, and none
    calls the content-type, laser-mode, e-shift or HDR-data getter more
    than once.  In a poll whose power query answers true, the power
    answer is recorded and the four NZ queries are made in turn, each
    exactly once: content type once the picture-mode getter (the last
    common one) has returned; laser mode once content type has returned;
    e-shift mode once laser mode has returned for content without "hdr"
    or "hlg", or once the theater-optimizer getter has returned; HDR data
    once e-shift mode has returned.  In particular such a poll, when it
    completes, has made each of the four queries exactly once. *)
Theorem NZ_wins_over_NX (cl : client) (w : world cl) :
  let tr := cycle w (update cl w).2 in
  str_in "NZ" (_model_family (self w)) = true →
  str_in "NX" (_model_family (self w)) = true →
  (dom (extra_state_attributes (self w)) = NZ_keys
   ∧ dom (extra_state_attributes (self w)) ≠ NX_keys)
  ∧ invocations JVCProjector.get_lamp_power tr = 0
  ∧ (invocations JVCProjector.get_content_type tr ≤ 1
     ∧ invocations JVCProjector.get_laser_mode tr ≤ 1
     ∧ invocations JVCProjector.get_eshift_mode tr ≤ 1
     ∧ invocations JVCProjector.get_hdr_data tr ≤ 1)
  ∧ ((respond cl JVCProjector.is_on (jvc_client w)).1 = Ok true →
     returned JVCProjector.is_on (PBool true) tr
     ∧ (∀ p, returned JVCProjector.get_picture_mode p tr →
          invocations JVCProjector.get_content_type tr = 1)
     ∧ (∀ c, returned JVCProjector.get_content_type c tr →
          invocations JVCProjector.get_laser_mode tr = 1)
     ∧ (∀ c l, returned JVCProjector.get_content_type (PStr c) tr →
          returned JVCProjector.get_laser_mode l tr →
          any_in ["hdr"; "hlg"] c = false →
          invocations JVCProjector.get_eshift_mode tr = 1)
     ∧ (∀ t, returned JVCProjector.get_theater_optimizer_state t tr →
          invocations JVCProjector.get_eshift_mode tr = 1)
     ∧ (∀ x, returned JVCProjector.get_eshift_mode x tr →
          invocations JVCProjector.get_hdr_data tr = 1)
     ∧ ((update cl w).1 = Ok tt →
        invocations JVCProjector.get_content_type tr = 1
        ∧ invocations JVCProjector.get_laser_mode tr = 1
        ∧ invocations JVCProjector.get_eshift_mode tr = 1
        ∧ invocations JVCProjector.get_hdr_data tr = 1)).
Proof.
  cbn. intros HNZ HNX. split.
  - assert (Hdom : dom (extra_state_attributes (self w)) = NZ_keys).
    { unfold extra_state_attributes. rewrite HNZ, dom_dict_display. simpl.
      unfold NZ_keys. set_solver. }
    rewrite Hdom. split; [done |].
    intros Heq.
    assert (Hin : "laser_mode" ∈ NZ_keys) by (unfold NZ_keys; set_solver).
    rewrite Heq in Hin. unfold NX_keys in Hin. set_solver.
  - run_all;
      (split; [reflexivity |]);
      (split; [split_and!; cbv; lia |]);
      intros Hpow; try discriminate Hpow;
      (split; [show_returned |]);
      (split; [intros p Hp; first [reflexivity | by case_returned Hp] |]);
      (split; [intros c' Hc; first [reflexivity | by case_returned Hc] |]);
      (split;
       [ intros c' l Hc Hl Hguard;
         first [ reflexivity
               | by case_returned Hl
               | by case_returned Hc
               | case_returned Hc; injection Hc as ->;
                 cbn in Hguard; congruence ] |]);
      (split; [intros t Ht; first [reflexivity | by case_returned Ht] |]);
      (split; [intros x Hx; first [reflexivity | by case_returned Hx] |]);
      intros Hdone; try discriminate Hdone; by split_and!.
Qed.

Lemma NZ_wins_over_NX_witness :
  let cl := canned "NX9-NZ8" true "hdr10" [] in
  let w := mkWorld
             (set_lamp_power "high"
                (set_state true (JVCRemote_init "Den" "10.0.0.9" "NX9-NZ8")))
             (0 : conn cl) [] in
  let tr := cycle w (update cl w).2 in
  (str_in "NZ" (_model_family (self w)) = true
   ∧ str_in "NX" (_model_family (self w)) = true
   ∧ (respond cl JVCProjector.is_on (jvc_client w)).1 = Ok true)
  ∧ dom (extra_state_attributes (self w)) = NZ_keys
  ∧ invocations JVCProjector.get_lamp_power tr = 0
  ∧ returned JVCProjector.is_on (PBool true) tr
  ∧ invocations JVCProjector.get_content_type tr = 1
  ∧ invocations JVCProjector.get_laser_mode tr = 1
  ∧ invocations JVCProjector.get_eshift_mode tr = 1
  ∧ invocations JVCProjector.get_hdr_data tr = 1.
Proof.
  intros cl w tr.
  assert (HNZ : str_in "NZ" (_model_family (self w)) = true) by reflexivity.
  assert (HNX : str_in "NX" (_model_family (self w)) = true) by reflexivity.
  assert (Hpow : (respond cl JVCProjector.is_on (jvc_client w)).1 = Ok true)
    by reflexivity.
  split; [by split_and! |].
  destruct (NZ_wins_over_NX cl w HNZ HNX) as ((Hk & _) & Hlamp & _ & Hq).
  destruct (Hq Hpow) as (Hon & _ & _ & _ & _ & _ & Hdone).
  destruct (Hdone eq_refl) as (H1 & H2 & H3 & H4).
  by split_and!.
Defined.

(** C9 as stated fails: with a family containing both tags, a poll that
    finds the device off queries none of content type, laser mode, e-shift
    mode and HDR data; and with the device on, a laser-mode getter that
    raises ends the cycle before e-shift mode and HDR data are queried. *)
Lemma NZ_and_NX_queries_not_made :
  let off := canned "NX9-NZ8" false "hdr10" [] in
  let tr_off := cycle (fresh_world off 0) (update off (fresh_world off 0)).2 in
  let broken := canned "NX9-NZ8" true "hdr10" [JVCProjector.get_laser_mode] in
  let tr_broken :=
    cycle (fresh_world broken 0) (update broken (fresh_world broken 0)).2 in
  (str_in "NZ" "NX9-NZ8" = true ∧ str_in "NX" "NX9-NZ8" = true)
  ∧ (invocations JVCProjector.get_content_type tr_off = 0
     ∧ invocations JVCProjector.get_laser_mode tr_off = 0
     ∧ invocations JVCProjector.get_eshift_mode tr_off = 0
     ∧ invocations JVCProjector.get_hdr_data tr_off = 0)
  ∧ (returned JVCProjector.is_on (PBool true) tr_broken
     ∧ invocations JVCProjector.get_eshift_mode tr_broken = 0
     ∧ invocations JVCProjector.get_hdr_data tr_broken = 0).
Proof. vm_compute. tauto. Qed.

(** * Further properties *)

(** ** Commands *)

(** X1: [send_command] hands its tokens to the client's generic executor in
    one call, makes no other call, yields exactly the outcome of that
    call, and leaves the entity as it was whether the call returns or
    raises. *)
Theorem send_command_passthrough (cl : client) (w : world cl)
    (command : list string) :
  let out := (respond cl (JVCProjector.exec_command command) (jvc_client w)).1 in
  let w' := (send_command cl command w).2 in
  cycle w w' = [(JVCProjector.exec_command command,
                 result_map JVCProjector.to_pyval out)]
  ∧ (send_command cl command w).1 = out
  ∧ self w' = self w.
Proof.
  cbn. unfold send_command. unfold_ops.
  destruct (respond cl (JVCProjector.exec_command command) (jvc_client w))
    as [[[]|e] c] eqn:E; cbn; norm_cycle; done.
Qed.

(** X2: [turn_off] makes exactly one call to the client, the power-off
    command; if that call returns, [is_on] becomes false and every other
    attribute of the entity, stale or not, stays as it was. *)
Theorem turn_off_optimistic (cl : client) (w : world cl) :
  let out := (respond cl JVCProjector.power_off (jvc_client w)).1 in
  let w' := (turn_off cl w).2 in
  cycle w w' = [(JVCProjector.power_off, result_map JVCProjector.to_pyval out)]
  ∧ (∀ v, out = Ok v →
       (turn_off cl w).1 = Ok tt
       ∧ is_on (self w') = false
       ∧ self w' = set_state false (self w)).
Proof.
  cbn. run_all; split; try done; intros ? [=].
Qed.

Lemma turn_off_optimistic_witness :
  let cl := canned "DLA-NX5" true "sdr" [] in
  let w := mkWorld
             (set_picture_mode "cinema"
                (set_state true (JVCRemote_init "Den" "10.0.0.9" "DLA-NX5")))
             (2 : conn cl) [] in
  (respond cl JVCProjector.power_off (jvc_client w)).1 = Ok tt
  ∧ cycle w (turn_off cl w).2 = [(JVCProjector.power_off, Ok PNone)]
  ∧ is_on (self (turn_off cl w).2) = false
  ∧ _picture_mode (self (turn_off cl w).2) = "cinema".
Proof.
  intros cl w.
  destruct (turn_off_optimistic cl w) as [Hcalls Hset].
  destruct (Hset tt eq_refl) as (_ & Hoff & Hself).
  split_and!; [reflexivity | exact Hcalls | exact Hoff |].
  rewrite Hself. reflexivity.
Defined.

(** ** What no operation changes *)

Lemma update_keeps_identity (cl : client) (w : world cl) :
  _name (self (update cl w).2) = _name (self w)
  ∧ _host (self (update cl w).2) = _host (self w)
  ∧ _model_family (self (update cl w).2) = _model_family (self w).
Proof. run_all; done. Qed.

Lemma power_commands_keep_identity (cl : client) (w : world cl) :
  (_name (self (turn_on cl w).2) = _name (self w)
   ∧ _host (self (turn_on cl w).2) = _host (self w)
   ∧ _model_family (self (turn_on cl w).2) = _model_family (self w))
  ∧ (_name (self (turn_off cl w).2) = _name (self w)
     ∧ _host (self (turn_off cl w).2) = _host (self w)
     ∧ _model_family (self (turn_off cl w).2) = _model_family (self w)).
Proof. split; run_all; done. Qed.

Lemma send_command_keeps_self (cl : client) (w : world cl)
    (command : list string) :
  self (send_command cl command w).2 = self w.
Proof.
  unfold send_command. unfold_ops.
  by destruct (respond cl (JVCProjector.exec_command command) (jvc_client w))
    as [[[]|e] c].
Qed.

(** X3: Whatever the client answers or raises, no operation of the entity
    changes its name, its host or its model family. *)
Theorem identity_is_immutable (cl : client) (w : world cl)
    (command : list string) :
  ∀ w', w' ∈ [ (turn_on cl w).2; (turn_off cl w).2; (update cl w).2;
               (send_command cl command w).2 ] →
    name (self w') = name (self w)
    ∧ host (self w') = host (self w)
    ∧ _model_family (self w') = _model_family (self w).
Proof.
  intros w' Hw'. unfold name, host.
  destruct (power_commands_keep_identity cl w) as [Hon Hoff].
  apply list_elem_of_In in Hw'. cbn in Hw'.
  destruct Hw' as [<-|[<-|[<-|[<-|[]]]]].
  - exact Hon.
  - exact Hoff.
  - apply update_keeps_identity.
  - by rewrite send_command_keeps_self.
Qed.

(** The key set depends on the model family only. *)
Lemma extra_state_attributes_dom_family (s1 s2 : JVCRemote) :
  _model_family s1 = _model_family s2 →
  dom (extra_state_attributes s1) = dom (extra_state_attributes s2).
Proof.
  intros Hfam. unfold extra_state_attributes. rewrite Hfam.
  destruct (str_in "NZ" (_model_family s2));
    [| destruct (str_in "NX" (_model_family s2))];
    by rewrite !dom_dict_display.
Qed.

(** X4: The set of attribute keys an entity presents never changes: it is the
    same after any operation, whatever the client did. *)
Theorem attribute_keys_are_stable (cl : client) (w : world cl)
    (command : list string) :
  ∀ w', w' ∈ [ (turn_on cl w).2; (turn_off cl w).2; (update cl w).2;
               (send_command cl command w).2 ] →
    dom (extra_state_attributes (self w')) = dom (extra_state_attributes (self w)).
Proof.
  intros w' Hw'. apply extra_state_attributes_dom_family.
  destruct (power_commands_keep_identity cl w) as [Hon Hoff].
  apply list_elem_of_In in Hw'. cbn in Hw'.
  destruct Hw' as [<-|[<-|[<-|[<-|[]]]]].
  - apply Hon.
  - apply Hoff.
  - apply update_keeps_identity.
  - by rewrite send_command_keeps_self.
Qed.

Lemma identity_is_immutable_witness :
  let cl := canned "DLA-NX5" true "hdr10" [JVCProjector.get_eshift_mode] in
  let w := fresh_world cl 0 in
  let w' := (update cl w).2 in
  w' ∈ [ (turn_on cl w).2; (turn_off cl w).2; (update cl w).2;
         (send_command cl ["menu"; "ok"] w).2 ]
  ∧ name (self w') = "Projector"
  ∧ host (self w') = "192.168.1.20"
  ∧ _model_family (self w') = "DLA-NX5".
Proof.
  intros cl w w'.
  assert (Hw' : w' ∈ [ (turn_on cl w).2; (turn_off cl w).2; (update cl w).2;
                       (send_command cl ["menu"; "ok"] w).2 ])
    by (do 2 apply list_elem_of_further; apply list_elem_of_here).
  split; [exact Hw' |].
  exact (identity_is_immutable cl w ["menu"; "ok"] w' Hw').
Defined.

Lemma attribute_keys_are_stable_witness :
  let cl := canned "B5A3-NZ8" true "hdr10" [] in
  let w := fresh_world cl 0 in
  let w' := (update cl w).2 in
  w' ∈ [ (turn_on cl w).2; (turn_off cl w).2; (update cl w).2;
         (send_command cl [] w).2 ]
  ∧ dom (extra_state_attributes (self w'))
    = dom (extra_state_attributes (self w)).
Proof.
  intros cl w w'.
  assert (Hw' : w' ∈ [ (turn_on cl w).2; (turn_off cl w).2; (update cl w).2;
                       (send_command cl [] w).2 ])
    by (do 2 apply list_elem_of_further; apply list_elem_of_here).
  split; [exact Hw' |].
  exact (attribute_keys_are_stable cl w [] w' Hw').
Defined.

(** ** The poll cycle in general *)

(** X5: In every cycle, complete or aborted, a slot changes only through its
    own getter: if the getter returned in the cycle the slot holds the
    value it returned, and if it did not (never called, or raised) the slot
    holds the value it had before the cycle. *)
Theorem update_slot_frame (cl : client) (w : world cl) (a : Slot.t) :
  let w' := (update cl w).2 in
  let tr := cycle w w' in
  (∀ v, returned (slot_getter a) v tr → slot_value a (self w') = v)
  ∧ ((∀ v, ¬ returned (slot_getter a) v tr) →
     slot_value a (self w') = slot_value a (self w)).
Proof.
  cbn. run_all; destruct a; cbn;
    (split;
     [ intros x Hx; case_returned Hx; by injection Hx as <-
     | intros Hnone; first [reflexivity | exfalso; eapply Hnone; show_returned] ]).
Qed.

Lemma update_slot_frame_witness :
  let cl := canned "DLA-NX7" true "sdr" [JVCProjector.get_color_mode] in
  let w := mkWorld
             (set_color_mode "bt2020"
                (set_input_mode "hdmi2"
                   (JVCRemote_init "Den" "10.0.0.9" "DLA-NX7")))
             (0 : conn cl) [] in
  let w' := (update cl w).2 in
  let tr := cycle w w' in
  (returned JVCProjector.get_input_mode (PStr "hdmi1") tr
   ∧ slot_value Slot.input_mode (self w') = PStr "hdmi1")
  ∧ ((∀ v, ¬ returned JVCProjector.get_color_mode v tr)
     ∧ slot_value Slot.color_mode (self w') = PStr "bt2020").
Proof.
  intros cl w w' tr.
  assert (Hin : returned JVCProjector.get_input_mode (PStr "hdmi1") tr)
    by (vm_compute; tauto).
  assert (Hnone : ∀ v, ¬ returned JVCProjector.get_color_mode v tr).
  { intros v Hv. vm_compute in Hv.
    repeat (destruct Hv as [Hv|Hv]; [discriminate Hv |]). exact Hv. }
  split.
  - split; [exact Hin |].
    exact (proj1 (update_slot_frame cl w Slot.input_mode) _ Hin).
  - split; [exact Hnone |].
    exact (proj2 (update_slot_frame cl w Slot.color_mode) Hnone).
Defined.

(** X6: Every cycle starts with the power query; the methods it calls appear
    in the order of [query_sequence], none twice; it makes at most
    thirteen calls and never sends a power command or a raw command. *)
Theorem update_call_discipline (cl : client) (w : world cl) :
  let tr := cycle w (update cl w).2 in
  head (tr.*1) = Some JVCProjector.is_on
  ∧ sublist (tr.*1) query_sequence
  ∧ length tr ≤ 13
  ∧ invocations JVCProjector.power_on tr = 0
  ∧ invocations JVCProjector.power_off tr = 0
  ∧ (∀ command, invocations (JVCProjector.exec_command command) tr = 0).
Proof.
  cbn. run_all;
    (split; [reflexivity |]);
    (split;
     [ cbn; unfold query_sequence;
       repeat first [apply sublist_nil | apply sublist_skip | apply sublist_cons]
     |]);
    (split; [cbn; lia |]);
    by split_and!.
Qed.

(** X7: When the power query itself raises, [update] raises that exception
    after this single call and the entity, [is_on] included, is exactly as
    before. *)
Theorem update_power_query_raises (cl : client) (w : world cl) (e : exception) :
  (respond cl JVCProjector.is_on (jvc_client w)).1 = Raise e →
  (update cl w).1 = Raise e
  ∧ cycle w (update cl w).2 = [(JVCProjector.is_on, Raise e)]
  ∧ self (update cl w).2 = self w.
Proof.
  unfold_ops.
  destruct (respond cl JVCProjector.is_on (jvc_client w)) as [[v|e'] c] eqn:E;
    cbn; intros [=]; subst. norm_cycle. done.
Qed.

Lemma update_power_query_raises_witness :
  let cl := canned "B5A3-NZ8" true "hdr10" [JVCProjector.is_on] in
  let w := mkWorld (set_state true (JVCRemote_init "Den" "10.0.0.9" "B5A3-NZ8"))
             (0 : conn cl) [] in
  let e := Exception "timeout" in
  (respond cl JVCProjector.is_on (jvc_client w)).1 = Raise e
  ∧ (update cl w).1 = Raise e
  ∧ cycle w (update cl w).2 = [(JVCProjector.is_on, Raise e)]
  ∧ is_on (self (update cl w).2) = true.
Proof.
  intros cl w e.
  assert (H : (respond cl JVCProjector.is_on (jvc_client w)).1 = Raise e)
    by reflexivity.
  split; [exact H |].
  destruct (update_power_query_raises cl w e H) as (H1 & H2 & H3).
  split_and!; [exact H1 | exact H2 |]. rewrite H3. reflexivity.
Defined.

(** ** Model-family dispatch *)

(** X8: For a family containing "NZ", no cycle calls the lamp-power getter
    and the cached lamp power never changes. *)
Theorem update_NZ_skips_lamp_power (cl : client) (w : world cl) :
  let w' := (update cl w).2 in
  str_in "NZ" (_model_family (self w)) = true →
  invocations JVCProjector.get_lamp_power (cycle w w') = 0
  ∧ _lamp_power (self w') = _lamp_power (self w).
Proof.
  cbn. intros HNZ. run_all; done.
Qed.

(** X9: For a family not containing "NZ", no cycle calls the content-type,
    laser-mode, HDR-processing or theater-optimizer getter, and the four
    cached values never change. *)
Theorem update_non_NZ_skips_NZ_queries (cl : client) (w : world cl) :
  let w' := (update cl w).2 in
  let tr := cycle w w' in
  str_in "NZ" (_model_family (self w)) = false →
  (invocations JVCProjector.get_content_type tr = 0
   ∧ invocations JVCProjector.get_laser_mode tr = 0
   ∧ invocations JVCProjector.get_hdr_processing tr = 0
   ∧ invocations JVCProjector.get_theater_optimizer_state tr = 0)
  ∧ (_content_type (self w') = _content_type (self w)
     ∧ _laser_mode (self w') = _laser_mode (self w)
     ∧ _hdr_processing (self w') = _hdr_processing (self w)
     ∧ _theater_optimizer (self w') = _theater_optimizer (self w)).
Proof.
  cbn. intros HNZ. run_all; done.
Qed.

(** X10: For a family containing neither "NX" nor "NZ", no cycle calls the
    e-shift or HDR-data getter either, and those two cached values never
    change: such a device is only ever asked for its power state, the six
    common attributes and its lamp power. *)
Theorem update_base_family_queries (cl : client) (w : world cl) :
  let w' := (update cl w).2 in
  let tr := cycle w w' in
  str_in "NX" (_model_family (self w)) = false →
  str_in "NZ" (_model_family (self w)) = false →
  (invocations JVCProjector.get_eshift_mode tr = 0
   ∧ invocations JVCProjector.get_hdr_data tr = 0)
  ∧ (_eshift (self w') = _eshift (self w)
     ∧ _hdr_data (self w') = _hdr_data (self w))
  ∧ (∀ ev, ev ∈ tr →
       ev.1 ∈ [ JVCProjector.is_on; JVCProjector.is_ll_on;
                JVCProjector.get_install_mode; JVCProjector.get_input_mode;
                JVCProjector.get_color_mode; JVCProjector.get_input_level;
                JVCProjector.get_picture_mode; JVCProjector.get_lamp_power ]).
Proof.
  cbn. intros HNX HNZ. run_all; (split; [done|]); (split; [done|]);
    intros ev Hev; apply list_elem_of_In in Hev; cbn in Hev;
    repeat (destruct Hev as [<-|Hev]; [cbn; set_solver |]); done.
Qed.

Lemma update_NZ_skips_lamp_power_witness :
  let cl := canned "B5A3-NZ8" true "hdr10" [] in
  let w := mkWorld (set_lamp_power "high"
                      (JVCRemote_init "Den" "10.0.0.9" "B5A3-NZ8"))
             (0 : conn cl) [] in
  let w' := (update cl w).2 in
  str_in "NZ" (_model_family (self w)) = true
  ∧ invocations JVCProjector.get_lamp_power (cycle w w') = 0
  ∧ _lamp_power (self w') = "high".
Proof.
  intros cl w w'.
  assert (HNZ : str_in "NZ" (_model_family (self w)) = true) by reflexivity.
  split; [exact HNZ |].
  destruct (update_NZ_skips_lamp_power cl w HNZ) as [H1 H2].
  split; [exact H1 |]. unfold w'. rewrite H2. reflexivity.
Defined.

Lemma update_non_NZ_skips_NZ_queries_witness :
  let cl := canned "DLA-NX7" true "hdr10" [] in
  let w := mkWorld (set_content_type "old"
                      (JVCRemote_init "Den" "10.0.0.9" "DLA-NX7"))
             (0 : conn cl) [] in
  let w' := (update cl w).2 in
  str_in "NZ" (_model_family (self w)) = false
  ∧ invocations JVCProjector.get_content_type (cycle w w') = 0
  ∧ invocations JVCProjector.get_hdr_processing (cycle w w') = 0
  ∧ _content_type (self w') = "old".
Proof.
  intros cl w w'.
  assert (HNZ : str_in "NZ" (_model_family (self w)) = false) by reflexivity.
  split; [exact HNZ |].
  destruct (update_non_NZ_skips_NZ_queries cl w HNZ)
    as ((H1 & _ & H3 & _) & (H5 & _)).
  split_and!; [exact H1 | exact H3 |]. unfold w'. rewrite H5. reflexivity.
Defined.

Lemma update_base_family_queries_witness :
  let cl := canned "DLA-X30" true "hdr10" [] in
  let w := fresh_world cl 0 in
  let w' := (update cl w).2 in
  (str_in "NX" (_model_family (self w)) = false
   ∧ str_in "NZ" (_model_family (self w)) = false)
  ∧ invocations JVCProjector.get_eshift_mode (cycle w w') = 0
  ∧ invocations JVCProjector.get_hdr_data (cycle w w') = 0
  ∧ _hdr_data (self w') = "".
Proof.
  intros cl w w'.
  assert (HNX : str_in "NX" (_model_family (self w)) = false) by reflexivity.
  assert (HNZ : str_in "NZ" (_model_family (self w)) = false) by reflexivity.
  split; [by split |].
  destruct (update_base_family_queries cl w HNX HNZ)
    as ((H1 & H2) & (_ & H4) & _).
  split_and!; [exact H1 | exact H2 |]. unfold w'. rewrite H4. reflexivity.
Defined.

(** ** Presentation of the snapshot *)

(** Reduce the projections of an explicit entity record, and nothing
    else. *)
Ltac read_fields :=
  cbn [_name _host _state _lowlatency_enabled _installation_mode
       _picture_mode _input_mode _laser_mode _eshift _color_mode
       _input_level _content_type _hdr_processing _lamp_power _hdr_data
       _theater_optimizer _model_family].

(** X11: In every view the "power_state" entry is [is_on], the "model" entry
    is the model family, and every other entry except "theater_optimizer"
    is the cached value of its slot, verbatim. *)
Theorem extra_state_attributes_verbatim (s : JVCRemote) :
  extra_state_attributes s !! "power_state" = Some (PBool (is_on s))
  ∧ extra_state_attributes s !! "model" = Some (PStr (_model_family s))
  ∧ (∀ a x, a ≠ Slot.theater_optimizer →
       extra_state_attributes s !! slot_key a = Some x →
       x = slot_value a s).
Proof.
  unfold extra_state_attributes.
  destruct (str_in "NZ" (_model_family s));
    [| destruct (str_in "NX" (_model_family s))];
    (split; [by vm_compute |]); (split; [by vm_compute |]);
    intros a x Ha H; destruct a; try done;
    vm_compute in H;
    first [discriminate H | injection H as <-; reflexivity].
Qed.

Lemma extra_state_attributes_verbatim_witness :
  let s := set_lamp_power "eco" (JVCRemote_init "Den" "10.0.0.9" "DLA-NX7") in
  (Slot.lamp_power ≠ Slot.theater_optimizer
   ∧ extra_state_attributes s !! slot_key Slot.lamp_power = Some (PStr "eco"))
  ∧ PStr "eco" = slot_value Slot.lamp_power s.
Proof.
  intros s.
  assert (Ha : Slot.lamp_power ≠ Slot.theater_optimizer) by discriminate.
  assert (H : extra_state_attributes s !! slot_key Slot.lamp_power
              = Some (PStr "eco")) by (by vm_compute).
  split; [by split |].
  exact (proj2 (proj2 (extra_state_attributes_verbatim s)) _ _ Ha H).
Defined.

(** An item whose key does not occur again stays in the display as
    written. *)
Lemma dict_display_cons_fresh (k : string) (v : pyval)
    (items : list (string * pyval)) :
  k ∉ items.*1 → dict_display ((k, v) :: items) = <[k := v]> (dict_display items).
Proof.
  unfold dict_display. simpl. generalize (∅ : gmap string pyval).
  induction items as [|[k' v'] items IH]; intros d Hk; simpl in *.
  - done.
  - apply not_elem_of_cons in Hk as [Hne Hk].
    rewrite <- (IH _ Hk). f_equal. by apply insert_insert_ne.
Qed.

(** Changing the power state changes the "power_state" entry and nothing
    else. *)
Lemma extra_state_attributes_set_state (b : bool) (s : JVCRemote) :
  extra_state_attributes (set_state b s)
  = <["power_state" := PBool b]> (extra_state_attributes s).
Proof.
  unfold extra_state_attributes, set_state. read_fields.
  destruct (str_in "NZ" (_model_family s));
    [| destruct (str_in "NX" (_model_family s))];
    rewrite !dict_display_cons_fresh
      by (apply (bool_decide_unpack _); by vm_compute);
    by rewrite insert_insert_eq.
Qed.

(** X12: After a poll that finds the device off, the presented attributes are
    the ones presented before the poll with "power_state" false: the stale
    values stay on display. *)
Theorem update_device_off_presentation (cl : client) (w : world cl) :
  (respond cl JVCProjector.is_on (jvc_client w)).1 = Ok false →
  extra_state_attributes (self (update cl w).2)
  = <["power_state" := PBool false]> (extra_state_attributes (self w)).
Proof.
  intros Hoff. rewrite <- extra_state_attributes_set_state. f_equal.
  revert Hoff. unfold_ops.
  by destruct (respond cl JVCProjector.is_on (jvc_client w)) as [[[]|e] c];
    cbn; intros [=].
Qed.

Lemma update_device_off_presentation_witness :
  let cl := canned "DLA-NX7" false "hdr10" [] in
  let w := mkWorld
             (set_picture_mode "cinema"
                (set_state true (JVCRemote_init "Den" "10.0.0.9" "DLA-NX7")))
             (0 : conn cl) [] in
  (respond cl JVCProjector.is_on (jvc_client w)).1 = Ok false
  ∧ extra_state_attributes (self (update cl w).2) !! "picture_mode"
    = Some (PStr "cinema")
  ∧ extra_state_attributes (self (update cl w).2) !! "power_state"
    = Some (PBool false).
Proof.
  intros cl w.
  assert (H : (respond cl JVCProjector.is_on (jvc_client w)).1 = Ok false)
    by reflexivity.
  split; [exact H |].
  rewrite (update_device_off_presentation cl w H).
  split; by vm_compute.
Defined.

(** Every entry of a dict display is one of its items. *)
Lemma dict_display_Forall (P : string → pyval → Prop)
    (items : list (string * pyval)) :
  Forall (λ kv, P kv.1 kv.2) items → map_Forall P (dict_display items).
Proof.
  unfold dict_display.
  assert (G : ∀ d : gmap string pyval,
             map_Forall P d → Forall (λ kv, P kv.1 kv.2) items →
             map_Forall P (foldl (λ d kv, <[kv.1 := kv.2]> d) d items)).
  { induction items as [|[k v] items IH]; intros d Hd Hitems; simpl.
    - exact Hd.
    - apply Forall_cons in Hitems as [Hkv Hitems].
      apply IH; [|exact Hitems]. by apply map_Forall_insert_2. }
  apply G, map_Forall_empty.
Qed.

(** X13: Before its first poll an entity reports itself off, and every entry
    it presents apart from "model" is [False] or the empty string. *)
Theorem fresh_entity_is_blank (n h family : string) :
  let s := JVCRemote_init n h family in
  is_on s = false
  ∧ name s = n ∧ host s = h
  ∧ map_Forall (λ k v, k = "model" ∨ v = PBool false ∨ v = PStr "")
      (extra_state_attributes s).
Proof.
  cbn. split_and!; try reflexivity.
  unfold extra_state_attributes, JVCRemote_init. read_fields.
  destruct (str_in "NZ" family); [| destruct (str_in "NX" family)];
    apply dict_display_Forall;
    repeat first [apply Forall_nil_2 | apply Forall_cons_2]; cbn; auto.
Qed.

(** ** Completed cycles *)

(** Normalise the tests recorded while running [update] and close the
    cases whose tests contradict each other. *)
Ltac tidy_tests :=
  repeat match goal with
         | B : context [(_ || true)%bool] |- _ => rewrite orb_true_r in B
         | B : context [(_ || false)%bool] |- _ => rewrite orb_false_r in B
         end;
  try congruence.



(** X15: A completed cycle makes one call when the device is off; when it is
    on it makes eight calls for a family with neither tag, ten for an
    "NX" family, and for an "NZ" family eleven, or thirteen when the
    content type just read contains "hdr" or "hlg". *)
Theorem update_round_trips (cl : client) (w : world cl) :
  let w' := (update cl w).2 in
  (update cl w).1 = Ok tt →
  length (cycle w w')
  = if is_on (self w') then
      if str_in "NZ" (_model_family (self w)) then
        if any_in ["hdr"; "hlg"] (_content_type (self w')) then 13 else 11
      else if str_in "NX" (_model_family (self w)) then 10
      else 8
    else 1.
Proof.
  cbn. unfold is_on.
  run_all; intros Hdone; try discriminate Hdone; tidy_tests;
    cbn; rewrite ?orb_false_r;
    repeat match goal with
           | B : _ = _ |- _ => rewrite B
           end;
    reflexivity.
Qed.

Lemma update_round_trips_witness :
  let cl := canned "B5A3-NZ8" true "hlg" [] in
  let w := fresh_world cl 0 in
  (update cl w).1 = Ok tt ∧ length (cycle w (update cl w).2) = 13.
Proof.
  intros cl w.
  assert (Hdone : (update cl w).1 = Ok tt) by reflexivity.
  split; [exact Hdone |].
  rewrite (update_round_trips cl w Hdone). reflexivity.
Defined.

(** X16: In a completed cycle of an "NZ" family the HDR-processing and
    theater-optimizer getters are each called exactly once when the
    content type read in the cycle contains "hdr" or "hlg", their answers
    becoming the cached values, and not at all otherwise. *)
Theorem update_NZ_hdr_guard (cl : client) (w : world cl) (content : string) :
  let w' := (update cl w).2 in
  let tr := cycle w w' in
  str_in "NZ" (_model_family (self w)) = true →
  (update cl w).1 = Ok tt →
  returned JVCProjector.get_content_type (PStr content) tr →
  if any_in ["hdr"; "hlg"] content then
    invocations JVCProjector.get_hdr_processing tr = 1
    ∧ invocations JVCProjector.get_theater_optimizer_state tr = 1
    ∧ returned JVCProjector.get_hdr_processing
        (PStr (_hdr_processing (self w'))) tr
    ∧ returned JVCProjector.get_theater_optimizer_state
        (PStr (_theater_optimizer (self w'))) tr
  else
    invocations JVCProjector.get_hdr_processing tr = 0
    ∧ invocations JVCProjector.get_theater_optimizer_state tr = 0.
Proof.
  cbn. intros HNZ Hdone Hct.
  destruct (str_in "hdr" content || (str_in "hlg" content || false)) eqn:Hguard;
    revert Hdone Hct;
    run_all; intros Hdone Hct; try discriminate Hdone;
    case_returned Hct; injection Hct as ->; try congruence;
    split_and!; first [reflexivity | show_returned].
Qed.

Lemma update_NZ_hdr_guard_witness :
  let cl := canned "B5A3-NZ8" true "hdr10" [] in
  let w := fresh_world cl 0 in
  let w' := (update cl w).2 in
  let tr := cycle w w' in
  (str_in "NZ" (_model_family (self w)) = true
   ∧ (update cl w).1 = Ok tt
   ∧ returned JVCProjector.get_content_type (PStr "hdr10") tr)
  ∧ invocations JVCProjector.get_hdr_processing tr = 1
  ∧ invocations JVCProjector.get_theater_optimizer_state tr = 1.
Proof.
  intros cl w w' tr.
  assert (HNZ : str_in "NZ" (_model_family (self w)) = true) by reflexivity.
  assert (Hdone : (update cl w).1 = Ok tt) by reflexivity.
  assert (Hct : returned JVCProjector.get_content_type (PStr "hdr10") tr)
    by (vm_compute; tauto).
  split; [by split_and! |].
  pose proof (update_NZ_hdr_guard cl w "hdr10" HNZ Hdone Hct) as H.
  change (any_in ["hdr"; "hlg"] "hdr10") with true in H.
  destruct H as (H1 & H2 & _). by split.
Defined.

(** The two HDR-conditional entries of the "NZ" view. *)
Lemma extra_state_attributes_NZ_hdr_entries (s : JVCRemote) :
  str_in "NZ" (_model_family s) = true →
  extra_state_attributes s !! "hdr_processing"
    = Some (PStr (_hdr_processing s))
  ∧ extra_state_attributes s !! "theater_optimizer"
    = Some (PBool (str_in "on" (_theater_optimizer s))).
Proof.
  intros HNZ. unfold extra_state_attributes. rewrite HNZ.
  split; vm_compute; reflexivity.
Qed.

(** X17: For an "NZ" family whose content type, as read in the cycle, contains
    neither "hdr" nor "hlg", the "hdr_processing" and "theater_optimizer"
    entries presented after the cycle are the ones presented before it:
    they are left as they were, not cleared. *)
Theorem update_NZ_sdr_keeps_hdr_entries (cl : client) (w : world cl)
    (content : string) :
  let w' := (update cl w).2 in
  let tr := cycle w w' in
  str_in "NZ" (_model_family (self w)) = true →
  returned JVCProjector.get_content_type (PStr content) tr →
  str_in "hdr" content = false →
  str_in "hlg" content = false →
  extra_state_attributes (self w') !! "hdr_processing"
    = extra_state_attributes (self w) !! "hdr_processing"
  ∧ extra_state_attributes (self w') !! "theater_optimizer"
    = extra_state_attributes (self w) !! "theater_optimizer".
Proof.
  cbn. intros HNZ Hct Hhdr Hhlg.
  assert (Hsame : _hdr_processing (self (update cl w).2)
                    = _hdr_processing (self w)
                  ∧ _theater_optimizer (self (update cl w).2)
                    = _theater_optimizer (self w)
                  ∧ _model_family (self (update cl w).2)
                    = _model_family (self w)).
  { revert Hct.
    run_all; intros Hct; try done;
      exfalso; case_returned Hct; injection Hct as ->;
      rewrite Hhdr, Hhlg in *; discriminate. }
  destruct Hsame as (Hhp & Hto & Hfam).
  assert (HNZ' : str_in "NZ" (_model_family (self (update cl w).2)) = true)
    by (by rewrite Hfam).
  destruct (extra_state_attributes_NZ_hdr_entries _ HNZ') as [-> ->].
  destruct (extra_state_attributes_NZ_hdr_entries _ HNZ) as [-> ->].
  by rewrite Hhp, Hto.
Qed.

Lemma update_NZ_sdr_keeps_hdr_entries_witness :
  let cl := canned "B5A3-NZ8" true "sdr" [] in
  let w := mkWorld
             (set_theater_optimizer "on"
                (set_hdr_processing "static"
                   (JVCRemote_init "Den" "10.0.0.9" "B5A3-NZ8")))
             (0 : conn cl) [] in
  let w' := (update cl w).2 in
  let tr := cycle w w' in
  (str_in "NZ" (_model_family (self w)) = true
   ∧ returned JVCProjector.get_content_type (PStr "sdr") tr
   ∧ str_in "hdr" "sdr" = false
   ∧ str_in "hlg" "sdr" = false)
  ∧ extra_state_attributes (self w') !! "hdr_processing"
    = Some (PStr "static")
  ∧ extra_state_attributes (self w') !! "theater_optimizer"
    = Some (PBool true).
Proof.
  intros cl w w' tr.
  assert (HNZ : str_in "NZ" (_model_family (self w)) = true) by reflexivity.
  assert (Hct : returned JVCProjector.get_content_type (PStr "sdr") tr)
    by (vm_compute; tauto).
  assert (Hhdr : str_in "hdr" "sdr" = false) by reflexivity.
  assert (Hhlg : str_in "hlg" "sdr" = false) by reflexivity.
  split; [by split_and! |].
  destruct (update_NZ_sdr_keeps_hdr_entries cl w "sdr" HNZ Hct Hhdr Hhlg)
    as [H1 H2].
  split; (etrans; [first [exact H1 | exact H2] |]); vm_compute; reflexivity.
Defined.
